(** * Scoring core of the image-scoring API route (src/app/api/score-image/route.ts)

    Shallow embedding of the similarity functions and of the [POST]
    orchestrator.  JavaScript numbers are modelled as real numbers, JS
    strings as Stdlib strings whose characters are read as Latin-1 code
    units, [throw] as the [Throw] outcome of a small state/exception monad,
    and every outside service (form parsing, sharp, fetch to the Azure
    endpoints, Date.now) as an oracle stored in an environment record. *)

From Stdlib Require Import Reals Lra List String Ascii ZArith Bool Lia.
Import ListNotations.
Open Scope R_scope.

(** ** Strings: toLowerCase, trim, split(/\s+/) on Latin-1 text *)

Module Text.

(** JavaScript [\s] / [String.prototype.trim] white space, restricted to
    the Latin-1 range: TAB, LF, VT, FF, CR, SPACE and NO-BREAK SPACE. *)
Definition is_ws (c : ascii) : bool :=
  let n := nat_of_ascii c in
  (Nat.leb 9 n && Nat.leb n 13) || Nat.eqb n 32 || Nat.eqb n 160.

(** [toLowerCase] on one Latin-1 code unit: A-Z and the upper-case
    letters U+00C0..U+00DE except U+00D7 (multiplication sign). *)
Definition lower_char (c : ascii) : ascii :=
  let n := nat_of_ascii c in
  if (Nat.leb 65 n && Nat.leb n 90)
     || (Nat.leb 192 n && Nat.leb n 222 && negb (Nat.eqb n 215))
  then ascii_of_nat (n + 32) else c.

Fixpoint toLowerCase (s : string) : string :=
  match s with
  | EmptyString => EmptyString
  | String c r => String (lower_char c) (toLowerCase r)
  end.

Fixpoint trim_start (s : string) : string :=
  match s with
  | EmptyString => EmptyString
  | String c r => if is_ws c then trim_start r else s
  end.

Definition rev_string (s : string) : string :=
  string_of_list_ascii (rev (list_ascii_of_string s)).

Definition trim (s : string) : string :=
  rev_string (trim_start (rev_string (trim_start s))).

(** [s.split(/\s+/)]: every maximal run of white space separates two
    tokens; the token before a leading run and after a trailing run is
    the empty string, and [""] splits to [[""]]. *)
Fixpoint split_ws_aux (s : string) (cur : string) (in_ws : bool)
  : list string :=
  match s with
  | EmptyString => [cur]
  | String c r =>
      if is_ws c then
        if in_ws then split_ws_aux r cur true
        else cur :: split_ws_aux r EmptyString true
      else split_ws_aux r (String.append cur (String c EmptyString)) false
  end.

Definition split_ws (s : string) : list string := split_ws_aux s EmptyString false.

(** [new Set(xs).has(w)] *)
Definition set_has (xs : list string) (w : string) : bool :=
  existsb (String.eqb w) xs.

(** The elements of [new Set(xs)], in insertion order. *)
Fixpoint set_of_aux (seen xs : list string) : list string :=
  match xs with
  | [] => rev seen
  | x :: r => if set_has seen x then set_of_aux seen r else set_of_aux (x :: seen) r
  end.

Definition set_of (xs : list string) : list string := set_of_aux [] xs.

End Text.

Import Text.

(** ** calculateBasicTextSimilarity *)

Definition words_of (t : string) : list string := split_ws (trim (toLowerCase t)).

(** [words1.filter(word => words2Set.has(word)).length] *)
Definition intersectionCount (text1 text2 : string) : nat :=
  let words2Set := words_of text2 in
  List.length (filter (set_has words2Set) (words_of text1)).

(** [new Set([...words1, ...words2]).size] *)
Definition unionSize (text1 text2 : string) : nat :=
  List.length (set_of (words_of text1 ++ words_of text2)).

Definition calculateBasicTextSimilarity (text1 text2 : string) : R :=
  let ic := intersectionCount text1 text2 in
  let us := unionSize text1 text2 in
  if Nat.ltb 0 us then INR ic / INR us else 0.

(** The Jaccard index of the two token sets, as the spec words it. *)
Definition jaccard_spec (text1 text2 : string) : R :=
  let s1 := set_of (words_of text1) in
  let s2 := set_of (words_of text2) in
  let inter := List.length (filter (set_has s2) s1) in
  let uni := List.length (set_of (s1 ++ s2)) in
  if Nat.ltb 0 uni then INR inter / INR uni else 0.

(** ** calculateCosineSimilarity *)

(** Outcome of a JavaScript computation that may throw. *)
Inductive Outcome (A : Type) : Type :=
| Ok (a : A)
| Throw (msg : string).
Arguments Ok {A} a.
Arguments Throw {A} msg.

Definition dimension_error : string := "Vectors must have the same dimension".

(** The [for] loop accumulating the dot product and both squared
    magnitudes. *)
Fixpoint cosine_loop (v1 v2 : list R) (dotProduct magnitude1 magnitude2 : R)
  : R * R * R :=
  match v1, v2 with
  | x :: r1, y :: r2 =>
      cosine_loop r1 r2 (dotProduct + x * y) (magnitude1 + x * x) (magnitude2 + y * y)
  | _, _ => (dotProduct, magnitude1, magnitude2)
  end.

Definition calculateCosineSimilarity (vector1 vector2 : list R) : Outcome R :=
  if negb (Nat.eqb (List.length vector1) (List.length vector2)) then Throw dimension_error
  else
    let '(dotProduct, m1, m2) := cosine_loop vector1 vector2 0 0 0 in
    let magnitude1 := sqrt m1 in
    let magnitude2 := sqrt m2 in
    if Req_EM_T magnitude1 0 then Ok 0
    else if Req_EM_T magnitude2 0 then Ok 0
    else Ok (Rmax 0 (dotProduct / (magnitude1 * magnitude2))).

(** Sums as a mathematician writes them, to state the result. *)
Fixpoint dot (a b : list R) : R :=
  match a, b with
  | x :: r1, y :: r2 => x * y + dot r1 r2
  | _, _ => 0
  end.

Definition norm (a : list R) : R := sqrt (dot a a).

(** Math.round(x * 100) / 100; [Int_part] is the floor. *)
Definition math_round (x : R) : R := IZR (Int_part (x + / 2)).
Definition round2 (x : R) : R := math_round (x * 100) / 100.

(** ** A state and exception monad for the async route code

    The state records the provider calls issued so far (the fetches to the
    Azure endpoints) and how many times [Date.now()] has been read. *)

Inductive Call : Type :=
| CaptionCall
| VectorizeImageCall
| VectorizeTextCall (text : string)
| ChatCall
| EmbeddingCall (deployment user input : string).

Record St : Type := mkSt { trace : list Call; ticks : nat }.

Definition M (A : Type) : Type := St -> Outcome A * St.

Definition ret {A} (a : A) : M A := fun s => (Ok a, s).

Definition bind {A B} (m : M A) (k : A -> M B) : M B :=
  fun s => match m s with
           | (Ok a, s') => k a s'
           | (Throw e, s') => (Throw e, s')
           end.

Definition throw {A} (e : string) : M A := fun s => (Throw e, s).

(** [try { m } catch (e) { h(e) }] *)
Definition catch {A} (m : M A) (h : string -> M A) : M A :=
  fun s => match m s with
           | (Ok a, s') => (Ok a, s')
           | (Throw e, s') => h e s'
           end.

Definition lift {A} (o : Outcome A) : M A := fun s => (o, s).

Definition emit (c : Call) : M unit :=
  fun s => (Ok tt, mkSt (trace s ++ [c]) (ticks s)).

Notation "x <- c1 ;; c2" := (bind c1 (fun x => c2))
  (at level 61, c1 at next level, right associativity).
Notation "c1 ;; c2" := (bind c1 (fun _ => c2))
  (at level 61, right associativity).

(** [Promise.all([m1, m2])]: both calls are issued before either is
    awaited; the combined promise rejects if one of them does. *)
Definition all2 {A B} (m1 : M A) (m2 : M B) : M (A * B) :=
  fun s => let (o1, s1) := m1 s in
           let (o2, s2) := m2 s1 in
           match o1, o2 with
           | Ok a, Ok b => (Ok (a, b), s2)
           | Throw e, _ => (Throw e, s2)
           | _, Throw e => (Throw e, s2)
           end.

Definition all3 {A B C} (m1 : M A) (m2 : M B) (m3 : M C) : M (A * B * C) :=
  all2 (all2 m1 m2) m3.

(** ** The environment: request, configuration and outside services *)

Record File : Type := mkFile { file_type : string; file_name : string }.

Record FormData : Type := mkFormData {
  form_image : option File;
  form_prompt : option string }.

(** [{ data: [{ embedding }], usage: { prompt_tokens, total_tokens } }] *)
Record EmbeddingResponse : Type := mkEmbeddingResponse {
  embedding : list R;
  usage : option (Z * Z) }.

(** [choices[0].message.content] and [usage]. *)
Record ChatResponse : Type := mkChatResponse {
  content : option string;
  chat_usage : option (Z * Z * Z) }.

(** Each oracle gives the outcome of one outside call: [None] when the
    call throws or answers with a non-2xx status or a malformed body. *)
Record Env : Type := mkEnv {
  formData : option FormData;                      (** [request.formData()] *)
  sharp_metadata : option (option Z * option Z);   (** [sharp(buf).metadata()] width, height *)
  AZURE_AI_VISION : bool;          (** endpoint and API key both set *)
  AZURE_OPENAI : bool;             (** endpoint and API key both set *)
  GPT4O_DEPLOYMENT : option string;  (** endpoint, key and deployment name set *)
  caption_api : option (string * R);          (** [captionResult.text], [.confidence] *)
  vectorize_image_api : option (list R);      (** [retrieval:vectorizeImage] *)
  vectorize_text_api : string -> option (list R);  (** [retrieval:vectorizeText] *)
  chat_api : option ChatResponse;             (** GPT-4o chat completion *)
  embeddings_api : string -> string -> string -> option EmbeddingResponse;
      (** deployment, [user] tag, [input] *)
  clock : nat -> Z }.              (** value of the n-th [Date.now()] *)

(** ** Result records of the route *)

Record AzureVisionResult : Type := mkAzureVisionResult {
  av_similarity : R; generatedCaption : string; av_confidence : R; av_modelUsed : string }.

Record MultimodalResult : Type := mkMultimodalResult {
  mm_similarity : R; imageEmbeddingDimensions : nat;
  textEmbeddingDimensions : nat; mm_modelUsed : string }.

Record GPT4oResult : Type := mkGPT4oResult {
  g_similarity : R; generatedDescription : string; g_modelUsed : string;
  g_tokenUsage : option (Z * Z * Z) }.

Record EmbeddingModelResult : Type := mkEmbeddingModelResult {
  emr_azureVisionSimilarity : R; emr_gpt4oSimilarity : R; modelName : string;
  dimensions : Z; emr_tokenUsage : option (Z * Z); emr_processingTime : Z }.

Record EmbeddingModel : Type := mkEmbeddingModel {
  em_name : string; em_key : string; em_dimensions : Z }.

Definition embeddingModels : list EmbeddingModel :=
  [ mkEmbeddingModel "text-embedding-ada-002" "ada002" 1536;
    mkEmbeddingModel "text-embedding-3-small" "embedding3Small" 1536;
    mkEmbeddingModel "text-embedding-3-large" "embedding3Large" 3072 ]%Z.

Record Scores : Type := mkScores {
  azureVisionSimilarity : R;
  azureMultimodalSimilarity : option R;
  gpt4oDescriptionSimilarity : option R }.

Record Metadata : Type := mkMetadata {
  imageSize : Z * Z;
  promptLength : Z;
  processingTime : Z;
  tokenUsage : option (Z * Z * Z) }.

Record ScoringResponse : Type := mkScoringResponse {
  success : bool;
  http_status : Z;
  scores : option Scores;
  embeddingComparison : option (list (string * EmbeddingModelResult));
  metadata : option Metadata;
  azureVisionDetails : option (string * R * string);
  multimodalDetails : option (nat * nat * string);
  gpt4oDetails : option (string * string * option (Z * Z * Z));
  error : option string }.

(** A JavaScript object used as a map: [o[k] = v]. *)
Definition obj_set {V} (o : list (string * V)) (k : string) (v : V)
  : list (string * V) :=
  if existsb (fun kv => String.eqb (fst kv) k) o
  then map (fun kv => if String.eqb (fst kv) k then (k, v) else kv) o
  else o ++ [(k, v)].

(** ** The route's functions *)

Section Route.

Variable env : Env.

(** [Date.now()] *)
Definition now : M Z :=
  fun s => (Ok (clock env (ticks s)), mkSt (trace s) (S (ticks s))).

(** getTextEmbedding: the legacy [text-embedding-ada-002] deployment. *)
Definition getTextEmbedding (text : string) : M EmbeddingResponse :=
  emit (EmbeddingCall "text-embedding-ada-002" "image-scoring-system" (trim text)) ;;
  match embeddings_api env "text-embedding-ada-002" "image-scoring-system" (trim text) with
  | Some r => ret r
  | None => throw "Azure OpenAI Embeddings API error"
  end.

Definition getTextEmbeddingWithModel (text modelName : string) : M EmbeddingResponse :=
  emit (EmbeddingCall modelName "embedding-comparison-system" (trim text)) ;;
  match embeddings_api env modelName "embedding-comparison-system" (trim text) with
  | Some r => ret r
  | None => throw (String.append "Azure OpenAI Embeddings API error for " modelName)
  end.

Definition calculateSemanticSimilarity (text1 text2 : string) : M R :=
  catch
    (if negb (AZURE_OPENAI env)
     then throw "Azure OpenAI endpoint and API key are required for embeddings"
     else
       rs <- all2 (getTextEmbedding text1) (getTextEmbedding text2) ;;
       lift (calculateCosineSimilarity (embedding (fst rs)) (embedding (snd rs))))
    (fun _ => ret (calculateBasicTextSimilarity text1 text2)).

Definition azure_vision_fallback : AzureVisionResult :=
  mkAzureVisionResult 0 "" 0 "Azure-AI-Vision".

Definition calculateAzureVisionSimilarity (prompt : string) : M AzureVisionResult :=
  catch
    (if negb (AZURE_AI_VISION env)
     then throw "Azure AI Vision endpoint and API key are required"
     else
       emit CaptionCall ;;
       match caption_api env with
       | None => throw "Azure AI Vision API error"
       | Some (text, confidence) =>
           if String.eqb text "" then throw "No caption generated by Azure AI Vision"
           else
             similarity <- calculateSemanticSimilarity text prompt ;;
             ret (mkAzureVisionResult similarity text confidence "Azure-AI-Vision")
       end)
    (fun _ => ret azure_vision_fallback).

Definition getImageEmbedding : M (option (list R)) :=
  emit VectorizeImageCall ;; ret (vectorize_image_api env).

Definition getTextEmbeddingFromVision (text : string) : M (option (list R)) :=
  emit (VectorizeTextCall (trim text)) ;; ret (vectorize_text_api env (trim text)).

Definition calculateMultimodalSimilarity (prompt : string) : M (option MultimodalResult) :=
  catch
    (if negb (AZURE_AI_VISION env) then ret None
     else
       es <- all2 getImageEmbedding (getTextEmbeddingFromVision prompt) ;;
       match es with
       | (Some imageEmbedding, Some textEmbedding) =>
           similarity <- lift (calculateCosineSimilarity imageEmbedding textEmbedding) ;;
           ret (Some (mkMultimodalResult similarity (List.length imageEmbedding)
                        (List.length textEmbedding) "Azure-Computer-Vision-Multimodal"))
       | _ => ret None
       end)
    (fun _ => ret None).

Definition calculateGPT4oDescriptionSimilarity (prompt : string) : M (option GPT4oResult) :=
  catch
    (match GPT4O_DEPLOYMENT env with
     | None => ret None
     | Some deploymentName =>
         emit ChatCall ;;
         match chat_api env with
         | None => ret None
         | Some result =>
             match content result with
             | None => throw "Cannot read properties of null (reading 'substring')"
             | Some generatedDescription =>
                 similarity <- calculateSemanticSimilarity generatedDescription prompt ;;
                 ret (Some (mkGPT4oResult similarity generatedDescription
                              (String.append "GPT-4o-" deploymentName) (chat_usage result)))
             end
         end
     end)
    (fun _ => ret None).

(** [x.usage?.prompt_tokens || 0] and [x.usage?.total_tokens || 0] *)
Definition prompt_tokens_of (r : option EmbeddingResponse) : Z :=
  match r with Some (mkEmbeddingResponse _ (Some (p, _))) => p | _ => 0%Z end.
Definition total_tokens_of (r : option EmbeddingResponse) : Z :=
  match r with Some (mkEmbeddingResponse _ (Some (_, t))) => t | _ => 0%Z end.

(** One iteration of the [for (const model of embeddingModels)] loop. *)
Definition model_step (azureCaption gpt4oDescription originalPrompt : string)
  (results : list (string * EmbeddingModelResult)) (model : EmbeddingModel)
  : M (list (string * EmbeddingModelResult)) :=
  startTime <- now ;;
  catch
    (es <- all3 (getTextEmbeddingWithModel originalPrompt (em_name model))
                (getTextEmbeddingWithModel azureCaption (em_name model))
                (if String.eqb gpt4oDescription "" then ret None
                 else r <- getTextEmbeddingWithModel gpt4oDescription (em_name model) ;;
                      ret (Some r)) ;;
     let promptEmbedding := fst (fst es) in
     let azureCaptionEmbedding := snd (fst es) in
     let gpt4oEmbedding := snd es in
     azureVisionSimilarity <- lift (calculateCosineSimilarity (embedding promptEmbedding)
                                     (embedding azureCaptionEmbedding)) ;;
     gpt4oSimilarity <- match gpt4oEmbedding with
                        | Some g => lift (calculateCosineSimilarity (embedding promptEmbedding)
                                           (embedding g))
                        | None => ret 0
                        end ;;
     endTime <- now ;;
     ret (obj_set results (em_key model)
            (mkEmbeddingModelResult azureVisionSimilarity gpt4oSimilarity
               (em_name model) (em_dimensions model)
               (Some (prompt_tokens_of (Some promptEmbedding)
                      + prompt_tokens_of (Some azureCaptionEmbedding)
                      + prompt_tokens_of gpt4oEmbedding,
                      total_tokens_of (Some promptEmbedding)
                      + total_tokens_of (Some azureCaptionEmbedding)
                      + total_tokens_of gpt4oEmbedding)%Z)
               (endTime - startTime)%Z)))
    (fun _ =>
       endTime <- now ;;
       ret (obj_set results (em_key model)
              (mkEmbeddingModelResult 0 0 (em_name model) (em_dimensions model)
                 None (endTime - startTime)%Z))).

Fixpoint model_loop (azureCaption gpt4oDescription originalPrompt : string)
  (models : list EmbeddingModel) (results : list (string * EmbeddingModelResult))
  : M (list (string * EmbeddingModelResult)) :=
  match models with
  | [] => ret results
  | model :: rest =>
      results' <- model_step azureCaption gpt4oDescription originalPrompt results model ;;
      model_loop azureCaption gpt4oDescription originalPrompt rest results'
  end.

Definition calculateEmbeddingModelComparison
  (azureCaption gpt4oDescription originalPrompt : string)
  : M (option (list (string * EmbeddingModelResult))) :=
  catch
    (if negb (AZURE_OPENAI env) then ret None
     else
       results <- model_loop azureCaption gpt4oDescription originalPrompt embeddingModels [] ;;
       ret (Some results))
    (fun _ => ret None).

(** ** POST *)

Definition missing_fields_response : ScoringResponse :=
  mkScoringResponse false 400 None None None None None None
    (Some "Missing required fields: image and prompt"%string).

Definition invalid_type_response : ScoringResponse :=
  mkScoringResponse false 400 None None None None None None
    (Some "Invalid file type. Please upload an image file."%string).

(** [Math.ceil(n / 4)] for a non-negative length [n]. *)
Definition ceil_div4 (n : Z) : Z := ((n + 3) / 4)%Z.

Definition success_response (imgSize : Z * Z) (prompt : string)
  (azureVisionResult : AzureVisionResult) (multimodalResult : option MultimodalResult)
  (gpt4oResult : option GPT4oResult)
  (comparison : option (list (string * EmbeddingModelResult)))
  (elapsed : Z) : ScoringResponse :=
  let len := Z.of_nat (String.length prompt) in
  mkScoringResponse true 200
    (Some (mkScores
             (round2 (av_similarity azureVisionResult))
             (option_map (fun m => round2 (mm_similarity m)) multimodalResult)
             (option_map (fun g => round2 (g_similarity g)) gpt4oResult)))
    comparison
    (Some (mkMetadata imgSize len elapsed (Some (ceil_div4 len, 0%Z, ceil_div4 len))))
    (Some (generatedCaption azureVisionResult, round2 (av_confidence azureVisionResult),
           av_modelUsed azureVisionResult))
    (option_map (fun m => (imageEmbeddingDimensions m, textEmbeddingDimensions m,
                           mm_modelUsed m)) multimodalResult)
    (option_map (fun g => (generatedDescription g, g_modelUsed g, g_tokenUsage g))
       gpt4oResult)
    None.

Definition failure_response (msg : string) (elapsed : Z) : ScoringResponse :=
  mkScoringResponse false 500 None None
    (Some (mkMetadata (0, 0)%Z 0%Z elapsed None))
    None None None (Some msg).

(** [gpt4oResult?.generatedDescription || ''] *)
Definition description_or_empty (gpt4oResult : option GPT4oResult) : string :=
  match gpt4oResult with
  | Some g => generatedDescription g
  | None => ""%string
  end.

(** The body of the [try] block of [POST]. *)
Definition post_try (startTime : Z) : M ScoringResponse :=
  match formData env with
  | None => throw "Failed to parse multipart form data"
  | Some fd =>
      match form_image fd, form_prompt fd with
      | Some imageFile, Some prompt =>
          if String.eqb prompt "" then ret missing_fields_response
          else if negb (String.prefix "image/" (file_type imageFile))
          then ret invalid_type_response
          else
            match sharp_metadata env with
            | None => throw "Input buffer contains unsupported image format"
            | Some (w, h) =>
                let imgSize := (match w with Some x => x | None => 0 end,
                                match h with Some x => x | None => 0 end)%Z in
                azureVisionResult <- calculateAzureVisionSimilarity prompt ;;
                multimodalResult <- calculateMultimodalSimilarity prompt ;;
                gpt4oResult <- calculateGPT4oDescriptionSimilarity prompt ;;
                comparison <- calculateEmbeddingModelComparison
                                (generatedCaption azureVisionResult)
                                (description_or_empty gpt4oResult)
                                prompt ;;
                endTime <- now ;;
                ret (success_response imgSize prompt azureVisionResult multimodalResult
                       gpt4oResult comparison (endTime - startTime)%Z)
            end
      | _, _ => ret missing_fields_response
      end
  end.

(** The [catch (error)] block of [POST]. *)
Definition post_handler (startTime : Z) (msg : string) : M ScoringResponse :=
  endTime <- now ;;
  ret (failure_response msg (endTime - startTime)%Z).

Definition POST : M ScoringResponse :=
  startTime <- now ;;
  catch (post_try startTime) (post_handler startTime).

End Route.

(** * Auxiliary definitions and concrete requests *)

(** A value with at most two decimals. *)
Definition is_hundredth (x : R) : Prop := exists k : Z, x = IZR k / 100.

(** Two runs from states that agree on the clock give the same outcome
    and read the clock equally often: the trace never feeds back. *)
Definition tick_det {A} (m : M A) : Prop :=
  forall s1 s2, ticks s1 = ticks s2 ->
    fst (m s1) = fst (m s2) /\ ticks (snd (m s1)) = ticks (snd (m s2)).

(** The entry one iteration of the loop stores, read off [model_step]
    for a clock position [t] (the [startTime] read). *)
Definition model_entry (env : Env) (c d p : string) (model : EmbeddingModel) (t : nat)
  : EmbeddingModelResult :=
  let call x := embeddings_api env (em_name model) "embedding-comparison-system" (trim x) in
  let elapsed := (clock env (S t) - clock env t)%Z in
  let fallback := mkEmbeddingModelResult 0 0 (em_name model) (em_dimensions model)
                    None elapsed in
  match call p, call c, (if String.eqb d "" then Some None else option_map Some (call d)) with
  | Some pe, Some ce, Some ge =>
      match calculateCosineSimilarity (embedding pe) (embedding ce),
            match ge with
            | Some g => calculateCosineSimilarity (embedding pe) (embedding g)
            | None => Ok 0
            end with
      | Ok a, Ok b =>
          mkEmbeddingModelResult a b (em_name model) (em_dimensions model)
            (Some (prompt_tokens_of (Some pe) + prompt_tokens_of (Some ce)
                   + prompt_tokens_of ge,
                   total_tokens_of (Some pe) + total_tokens_of (Some ce)
                   + total_tokens_of ge)%Z)
            elapsed
      | _, _ => fallback
      end
  | _, _, _ => fallback
  end.

Definition ada002 := mkEmbeddingModel "text-embedding-ada-002" "ada002" 1536.

Definition embedding3Small := mkEmbeddingModel "text-embedding-3-small" "embedding3Small" 1536.

Definition embedding3Large := mkEmbeddingModel "text-embedding-3-large" "embedding3Large" 3072.

Definition comparison_entries (env : Env) (c d p : string) (t : nat)
  : list (string * EmbeddingModelResult) :=
  [ ("ada002", model_entry env c d p ada002 t);
    ("embedding3Small", model_entry env c d p embedding3Small (S (S t)));
    ("embedding3Large", model_entry env c d p embedding3Large (S (S (S (S t))))) ]%string.

(** [obj[k]] on a JavaScript object used as a map. *)
Definition obj_get {V} (o : list (string * V)) (k : string) : option V :=
  option_map snd (find (fun kv => String.eqb (fst kv) k) o).

(** Some embedding call of [model] on the prompt, the caption or the
    (non-empty) description fails. *)
Definition model_call_fails (env : Env) (model : EmbeddingModel) (c d p : string) : Prop :=
  let call x := embeddings_api env (em_name model) "embedding-comparison-system" (trim x) in
  call p = None \/ call c = None \/ (d <> ""%string /\ call d = None).

(** [env'] differs from [env] at most in the answers of deployment [dep]
    (and in parts the comparison does not read). *)
Definition agrees_except (env env' : Env) (dep : string) : Prop :=
  AZURE_OPENAI env' = AZURE_OPENAI env /\ clock env' = clock env /\
  forall dep' u t, dep' <> dep -> embeddings_api env' dep' u t = embeddings_api env dep' u t.

Definition tick_pres {A} (m : M A) : Prop := forall s, ticks (snd (m s)) = ticks s.

(** The request passes validation with image [img] and prompt [p], and
    sharp reads the image's width and height. *)
Definition request_ok (env : Env) (img : File) (p : string) (w h : option Z) : Prop :=
  exists fd, formData env = Some fd /\ form_image fd = Some img /\
    form_prompt fd = Some p /\ p <> ""%string /\
    String.prefix "image/" (file_type img) = true /\ sharp_metadata env = Some (w, h).

Definition image_size (w h : option Z) : Z * Z :=
  (match w with Some x => x | None => 0 end, match h with Some x => x | None => 0 end)%Z.

(** The caption branch throws: not configured, a failing call, or an
    answer without caption text. *)
Definition caption_fails (env : Env) : Prop :=
  AZURE_AI_VISION env = false \/ caption_api env = None \/
  exists conf, caption_api env = Some (""%string, conf).

Definition png : File := mkFile "image/png" "mug.png".

(** A request whose prompt is a single space, with the caption call
    failing. *)
Definition env_caption_down : Env :=
  mkEnv (Some (mkFormData (Some png) (Some " "%string))) (Some (Some 640%Z, Some 480%Z))
    true true None None None (fun _ => None) None (fun _ _ _ => None) Z.of_nat.

(** Prompt "red", caption "red red", Azure OpenAI not configured. *)
Definition env_red : Env :=
  mkEnv (Some (mkFormData (Some png) (Some "red"%string))) (Some (Some 640%Z, Some 480%Z))
    true false None (Some ("red red"%string, / 2)) None (fun _ => None) None
    (fun _ _ _ => None) Z.of_nat.

Definition s0 : St := mkSt [] 0.

(** Prompt "p" and caption "" (vision not configured): the prompt embeds
    to (1,0,0) and the caption to (1,2,2) under every model. *)
Definition env_cmp : Env :=
  mkEnv (Some (mkFormData (Some png) (Some "p"%string))) (Some (Some 640%Z, Some 480%Z))
    false true None None None (fun _ => None) None
    (fun _ _ t => if String.eqb t "p" then Some (mkEmbeddingResponse [1; 0; 0] None)
                  else Some (mkEmbeddingResponse [1; 2; 2] None))
    Z.of_nat.

(** [env] with other answers of the two multimodal vectorize calls. *)
Definition with_multimodal (env : Env) (vi : option (list R))
  (vt : string -> option (list R)) : Env :=
  mkEnv (formData env) (sharp_metadata env) (AZURE_AI_VISION env) (AZURE_OPENAI env)
    (GPT4O_DEPLOYMENT env) (caption_api env) vi vt (chat_api env) (embeddings_api env)
    (clock env).

(** Azure OpenAI configured, every embedding call failing. *)
Definition env_embeddings_down : Env :=
  mkEnv (Some (mkFormData (Some png) (Some "a red ceramic mug"%string)))
    (Some (Some 640%Z, Some 480%Z)) false true None None None (fun _ => None) None
    (fun _ _ _ => None) Z.of_nat.

(** A text file uploaded in place of an image. *)
Definition env_text_file : Env :=
  mkEnv (Some (mkFormData (Some (mkFile "text/plain" "notes.txt"))
                 (Some "a red ceramic mug"%string)))
    None true true None None None (fun _ => None) None (fun _ _ _ => None) Z.of_nat.

(** An upload sharp cannot read. *)
Definition env_bad_image : Env :=
  mkEnv (Some (mkFormData (Some png) (Some "a red ceramic mug"%string)))
    None true true None None None (fun _ => None) None (fun _ _ _ => None) Z.of_nat.

(** * Properties of the similarity functions *)

Lemma cosine_loop_sums (v1 v2 : list R) (d m1 m2 : R) :
  List.length v1 = List.length v2 ->
  cosine_loop v1 v2 d m1 m2 = (d + dot v1 v2, m1 + dot v1 v1, m2 + dot v2 v2).
Proof.
  revert v2 d m1 m2.
  induction v1 as [|x r1 IH]; intros [|y r2] d m1 m2 Hlen; simpl in *;
    try discriminate.
  - f_equal; [f_equal|]; ring.
  - rewrite IH by lia. f_equal; [f_equal|]; ring.
Qed.

Lemma dot_comm (a b : list R) : dot a b = dot b a.
Proof.
  revert b; induction a as [|x r IH]; intros [|y r2]; simpl; try reflexivity.
  rewrite IH; ring.
Qed.

Lemma dot_self_nonneg (a : list R) : 0 <= dot a a.
Proof.
  induction a as [|x r IH]; simpl; [lra|].
  pose proof (Rle_0_sqr x); unfold Rsqr in *; lra.
Qed.

(** The quadratic form behind Cauchy-Schwarz. *)
Lemma dot_combination_nonneg (a b : list R) (c e : R) :
  List.length a = List.length b ->
  0 <= c * c * dot a a - 2 * c * e * dot a b + e * e * dot b b.
Proof.
  revert b; induction a as [|x r IH]; intros [|y r2] Hlen; simpl in *;
    try discriminate; [lra|].
  specialize (IH r2 ltac:(lia)).
  pose proof (Rle_0_sqr (c * x - e * y)) as Hsq; unfold Rsqr in Hsq.
  nra.
Qed.

Lemma dot_self_zero (a b : list R) : dot a a = 0 -> dot a b = 0.
Proof.
  revert b; induction a as [|x r IH]; intros [|y r2] H; simpl in *; try lra.
  pose proof (dot_self_nonneg r); pose proof (Rle_0_sqr x); unfold Rsqr in *.
  assert (x * x = 0) by lra.
  assert (x = 0) by (apply Rmult_integral in H2; tauto).
  subst x; rewrite IH by lra; ring.
Qed.

Lemma dot_le_norms (a b : list R) :
  List.length a = List.length b -> dot a b <= norm a * norm b.
Proof.
  intros Hlen; unfold norm.
  pose proof (dot_self_nonneg a) as Ha; pose proof (dot_self_nonneg b) as Hb.
  pose proof (sqrt_pos (dot a a)) as Hna; pose proof (sqrt_pos (dot b b)) as Hnb.
  pose proof (sqrt_sqrt _ Ha) as Ea; pose proof (sqrt_sqrt _ Hb) as Eb.
  pose proof (dot_combination_nonneg a b (sqrt (dot b b)) (sqrt (dot a a)) Hlen) as H.
  set (na := sqrt (dot a a)) in *; set (nb := sqrt (dot b b)) in *.
  destruct (Req_dec (na * nb) 0) as [Z0|NZ].
  - (* one norm is 0, so that vector is 0 and the dot product is 0 *)
    assert (na = 0 \/ nb = 0) as [Z|Z] by (apply Rmult_integral; exact Z0).
    + assert (dot a a = 0) by nra.
      rewrite (dot_self_zero a) by assumption. nra.
    + assert (dot b b = 0) by nra.
      rewrite dot_comm, (dot_self_zero b) by assumption. nra.
  - assert (0 < na * nb) by (destruct (Rle_lt_or_eq_dec 0 (na * nb)); nra).
    replace (nb * nb * dot a a - 2 * nb * na * dot a b + na * na * dot b b)
      with (2 * (na * nb) * (na * nb - dot a b)) in H
      by (rewrite <- Ea, <- Eb; ring).
    nra.
Qed.

Lemma calculateCosineSimilarity_eq (a b : list R) :
  calculateCosineSimilarity a b =
  if negb (Nat.eqb (List.length a) (List.length b)) then Throw dimension_error
  else if Req_EM_T (norm a) 0 then Ok 0
  else if Req_EM_T (norm b) 0 then Ok 0
  else Ok (Rmax 0 (dot a b / (norm a * norm b))).
Proof.
  unfold calculateCosineSimilarity.
  destruct (Nat.eqb (List.length a) (List.length b)) eqn:E; simpl; [|reflexivity].
  apply Nat.eqb_eq in E.
  rewrite cosine_loop_sums by exact E.
  unfold norm; rewrite !Rplus_0_l; reflexivity.
Qed.

(** Every value [calculateCosineSimilarity] returns lies in [0, 1]. *)
Lemma cosine_in_unit (a b : list R) (x : R) :
  calculateCosineSimilarity a b = Ok x -> 0 <= x <= 1.
Proof.
  rewrite calculateCosineSimilarity_eq.
  destruct (Nat.eqb (List.length a) (List.length b)) eqn:E; simpl;
    [|discriminate].
  apply Nat.eqb_eq in E.
  destruct (Req_EM_T (norm a) 0); [intros H; injection H; intros; subst; lra|].
  destruct (Req_EM_T (norm b) 0); [intros H; injection H; intros; subst; lra|].
  intros H; injection H; intros <-.
  pose proof (dot_le_norms a b E).
  assert (0 < norm a) by (pose proof (sqrt_pos (dot a a)); unfold norm in *; lra).
  assert (0 < norm b) by (pose proof (sqrt_pos (dot b b)); unfold norm in *; lra).
  split; [apply Rmax_l|].
  apply Rmax_lub; [lra|].
  apply Rmult_le_reg_r with (norm a * norm b); [nra|].
  unfold Rdiv; rewrite Rmult_assoc, Rinv_l by nra. lra.
Qed.

Lemma norm_100 : norm [1; 0; 0] = 1.
Proof.
  unfold norm; simpl.
  replace (1 * 1 + (0 * 0 + (0 * 0 + 0))) with 1 by ring. apply sqrt_1.
Qed.

Lemma norm_122 : norm [1; 2; 2] = 3.
Proof.
  unfold norm; simpl.
  replace (1 * 1 + (2 * 2 + (2 * 2 + 0))) with (3 * 3) by ring.
  apply sqrt_square; lra.
Qed.

Lemma dot_100_122 : dot [1; 0; 0] [1; 2; 2] = 1.
Proof. simpl; ring. Qed.

Lemma cosine_example : calculateCosineSimilarity [1; 0; 0] [1; 2; 2] = Ok (1 / 3).
Proof.
  rewrite calculateCosineSimilarity_eq, norm_100, norm_122, dot_100_122; simpl.
  destruct (Req_EM_T 1 0); [lra|].
  destruct (Req_EM_T 3 0); [lra|].
  f_equal. rewrite Rmax_right; [field|].
  replace (1 / (1 * 3)) with (/ 3) by field.
  left; apply Rinv_0_lt_compat; lra.
Qed.

(** ** C2: calculateCosineSimilarity
    (C2) Vectors of different lengths make [calculateCosineSimilarity]
    throw the dimension-mismatch error; for equal lengths it returns 0
    when one magnitude is exactly 0, and otherwise
    [max(0, dot(a,b) / (|a| * |b|))]. *)
Theorem cosine_contract :
  (forall a b : list R, List.length a <> List.length b ->
     calculateCosineSimilarity a b = Throw dimension_error) /\
  (forall a b : list R, List.length a = List.length b ->
     norm a = 0 \/ norm b = 0 -> calculateCosineSimilarity a b = Ok 0) /\
  (forall a b : list R, List.length a = List.length b ->
     norm a <> 0 -> norm b <> 0 ->
     calculateCosineSimilarity a b = Ok (Rmax 0 (dot a b / (norm a * norm b)))).
Proof.
  split; [|split]; intros a b Hlen; rewrite calculateCosineSimilarity_eq.
  - apply Nat.eqb_neq in Hlen; rewrite Hlen; reflexivity.
  - apply Nat.eqb_eq in Hlen; rewrite Hlen; simpl.
    intros [Z|Z]; destruct (Req_EM_T (norm a) 0); try reflexivity;
      [contradiction|].
    destruct (Req_EM_T (norm b) 0); [reflexivity|contradiction].
  - apply Nat.eqb_eq in Hlen; rewrite Hlen; simpl. intros Na Nb.
    destruct (Req_EM_T (norm a) 0); [contradiction|].
    destruct (Req_EM_T (norm b) 0); [contradiction|reflexivity].
Qed.

Lemma cosine_contract_witness :
  calculateCosineSimilarity [1; 0] [1] = Throw dimension_error /\
  calculateCosineSimilarity [0; 0] [1; 2] = Ok 0 /\
  calculateCosineSimilarity [1; 0; 0] [1; 2; 2] = Ok (1 / 3).
Proof.
  destruct cosine_contract as [H1 [H2 H3]].
  split; [apply H1; simpl; lia|split].
  - apply H2; [reflexivity|left].
    unfold norm; simpl. replace (0 * 0 + (0 * 0 + 0)) with 0 by ring. apply sqrt_0.
  - rewrite (H3 [1; 0; 0] [1; 2; 2] eq_refl);
      [|rewrite norm_100; lra|rewrite norm_122; lra].
    rewrite norm_100, norm_122, dot_100_122. f_equal. rewrite Rmax_right; [field|].
    replace (1 / (1 * 3)) with (/ 3) by field.
    left; apply Rinv_0_lt_compat; lra.
Defined.

(** ** C9: symmetry
    (C9) [calculateCosineSimilarity a b = calculateCosineSimilarity b a]
    for all vectors (for equal lengths in particular; for different
    lengths both throw the same error). *)
Theorem cosine_symmetric (a b : list R) :
  calculateCosineSimilarity a b = calculateCosineSimilarity b a.
Proof.
  rewrite !calculateCosineSimilarity_eq, Nat.eqb_sym.
  destruct (Nat.eqb (List.length b) (List.length a)); simpl; [|reflexivity].
  rewrite (dot_comm a b), (Rmult_comm (norm a) (norm b)).
  destruct (Req_EM_T (norm a) 0), (Req_EM_T (norm b) 0); reflexivity.
Qed.

(** ** The token-overlap fallback at concrete inputs *)

Lemma basic_similarity_value (t1 t2 : string) (ic us : nat) :
  intersectionCount t1 t2 = ic -> unionSize t1 t2 = us -> (0 < us)%nat ->
  calculateBasicTextSimilarity t1 t2 = INR ic / INR us.
Proof.
  intros Hic Hus Hpos; unfold calculateBasicTextSimilarity; cbv zeta.
  rewrite Hic, Hus. apply Nat.ltb_lt in Hpos; rewrite Hpos; reflexivity.
Qed.

Lemma basic_similarity_empty : calculateBasicTextSimilarity "" "" = 1.
Proof.
  rewrite (basic_similarity_value "" "" 1 1) by (reflexivity || lia).
  simpl; field.
Qed.

Lemma basic_similarity_red : calculateBasicTextSimilarity "red red" "red" = 2.
Proof.
  rewrite (basic_similarity_value "red red" "red" 2 1) by (reflexivity || lia).
  simpl; field.
Qed.

Lemma basic_similarity_space : calculateBasicTextSimilarity "" " " = 1.
Proof.
  rewrite (basic_similarity_value "" " " 1 1) by (reflexivity || lia).
  simpl; field.
Qed.

(** ** Rounding to two decimals *)

Lemma Int_part_half_shift (k : Z) : Int_part (IZR k + / 2) = k.
Proof.
  symmetry; apply Int_part_spec; lra.
Qed.

Lemma round2_IZR (k : Z) : round2 (IZR k) = IZR k.
Proof.
  unfold round2, math_round.
  rewrite <- mult_IZR, Int_part_half_shift, mult_IZR. field.
Qed.

Lemma round2_0 : round2 0 = 0.
Proof. exact (round2_IZR 0). Qed.


Lemma round2_hundredth (x : R) : is_hundredth (round2 x).
Proof. exists (Int_part (x * 100 + / 2)); reflexivity. Qed.

Lemma one_third_not_hundredth : ~ is_hundredth (1 / 3).
Proof.
  intros [k Hk].
  assert (IZR (3 * k) = IZR 100) as H.
  { rewrite mult_IZR. apply (Rmult_eq_reg_r (/ 300)); [|lra].
    replace (IZR 100) with 100 by reflexivity.
    replace (IZR 3 * IZR k * / 300) with (IZR k / 100) by (simpl; field).
    rewrite <- Hk; field. }
  apply eq_IZR in H. lia.
Qed.

(** * Running the monad *)


Create HintDb tickdet.

Lemma tick_det_ret {A} (a : A) : tick_det (ret a).
Proof. intros s1 s2 H; simpl; auto. Qed.

Lemma tick_det_throw {A} (e : string) : tick_det (@throw A e).
Proof. intros s1 s2 H; simpl; auto. Qed.

Lemma tick_det_lift {A} (o : Outcome A) : tick_det (lift o).
Proof. intros s1 s2 H; simpl; auto. Qed.

Lemma tick_det_emit (c : Call) : tick_det (emit c).
Proof. intros s1 s2 H; simpl; auto. Qed.

Lemma tick_det_now (env : Env) : tick_det (now env).
Proof. intros s1 s2 H; simpl; rewrite H; auto. Qed.

Lemma tick_det_bind {A B} (m : M A) (k : A -> M B) :
  tick_det m -> (forall a, tick_det (k a)) -> tick_det (bind m k).
Proof.
  intros Hm Hk s1 s2 H; unfold bind.
  destruct (Hm s1 s2 H) as [Ho Ht].
  destruct (m s1) as [[a|e] s1'], (m s2) as [[a'|e'] s2']; simpl in *;
    try discriminate.
  - injection Ho as <-. apply Hk; exact Ht.
  - injection Ho as <-. auto.
Qed.

Lemma tick_det_catch {A} (m : M A) (h : string -> M A) :
  tick_det m -> (forall e, tick_det (h e)) -> tick_det (catch m h).
Proof.
  intros Hm Hh s1 s2 H; unfold catch.
  destruct (Hm s1 s2 H) as [Ho Ht].
  destruct (m s1) as [[a|e] s1'], (m s2) as [[a'|e'] s2']; simpl in *;
    try discriminate.
  - injection Ho as <-. auto.
  - injection Ho as <-. apply Hh; exact Ht.
Qed.

Lemma tick_det_all2 {A B} (m1 : M A) (m2 : M B) :
  tick_det m1 -> tick_det m2 -> tick_det (all2 m1 m2).
Proof.
  intros H1 H2 s1 s2 H; unfold all2.
  destruct (H1 s1 s2 H) as [Ho Ht].
  destruct (m1 s1) as [o1 t1], (m1 s2) as [o1' t1']; simpl in *; subst o1'.
  destruct (H2 t1 t1' Ht) as [Ho2 Ht2].
  destruct (m2 t1) as [o2 u1], (m2 t1') as [o2' u1']; simpl in *; subst o2'.
  destruct o1, o2; simpl; auto.
Qed.

#[export] Hint Resolve tick_det_ret tick_det_throw tick_det_lift tick_det_emit
  tick_det_now tick_det_all2 : tickdet.

Ltac solve_tick_det :=
  repeat (intros; cbv beta zeta;
    match goal with
    | |- tick_det (bind _ _) => apply tick_det_bind
    | |- tick_det (catch _ _) => apply tick_det_catch
    | |- tick_det (all3 _ _ _) => unfold all3
    | |- tick_det (all2 _ _) => apply tick_det_all2
    | |- tick_det (match ?x with _ => _ end) => destruct x
    | |- tick_det (if ?x then _ else _) => destruct x
    | |- tick_det _ => solve [auto with tickdet]
    end).

Section Components.

Variable env : Env.

Lemma tick_det_getTextEmbedding (t : string) : tick_det (getTextEmbedding env t).
Proof. unfold getTextEmbedding; solve_tick_det. Qed.

Lemma tick_det_getTextEmbeddingWithModel (t n : string) :
  tick_det (getTextEmbeddingWithModel env t n).
Proof. unfold getTextEmbeddingWithModel; solve_tick_det. Qed.

Hint Resolve tick_det_getTextEmbedding tick_det_getTextEmbeddingWithModel : tickdet.

Lemma tick_det_calculateSemanticSimilarity (t1 t2 : string) :
  tick_det (calculateSemanticSimilarity env t1 t2).
Proof. unfold calculateSemanticSimilarity; solve_tick_det. Qed.

Hint Resolve tick_det_calculateSemanticSimilarity : tickdet.

Lemma tick_det_calculateAzureVisionSimilarity (p : string) :
  tick_det (calculateAzureVisionSimilarity env p).
Proof. unfold calculateAzureVisionSimilarity; solve_tick_det. Qed.

Lemma tick_det_calculateMultimodalSimilarity (p : string) :
  tick_det (calculateMultimodalSimilarity env p).
Proof.
  unfold calculateMultimodalSimilarity, getImageEmbedding, getTextEmbeddingFromVision;
    solve_tick_det.
Qed.

Lemma tick_det_calculateGPT4oDescriptionSimilarity (p : string) :
  tick_det (calculateGPT4oDescriptionSimilarity env p).
Proof. unfold calculateGPT4oDescriptionSimilarity; solve_tick_det. Qed.

Lemma tick_det_model_step c d p results model :
  tick_det (model_step env c d p results model).
Proof. unfold model_step; solve_tick_det. Qed.

Hint Resolve tick_det_model_step : tickdet.

Lemma tick_det_model_loop c d p models :
  forall results, tick_det (model_loop env c d p models results).
Proof.
  induction models as [|m rest IH]; intros results; simpl; solve_tick_det.
Qed.

Hint Resolve tick_det_model_loop : tickdet.

Lemma tick_det_calculateEmbeddingModelComparison c d p :
  tick_det (calculateEmbeddingModelComparison env c d p).
Proof. unfold calculateEmbeddingModelComparison; solve_tick_det. Qed.

End Components.

(** * The embedding model comparison *)


Lemma model_step_run (env : Env) c d p results model s :
  fst (model_step env c d p results model s)
    = Ok (obj_set results (em_key model) (model_entry env c d p model (ticks s))) /\
  ticks (snd (model_step env c d p results model s)) = S (S (ticks s)).
Proof.
  unfold model_entry.
  cbv [model_step bind catch now all3 all2 getTextEmbeddingWithModel emit ret lift throw].
  cbv beta iota zeta; simpl.
  destruct (embeddings_api env (em_name model) "embedding-comparison-system" (trim p));
  destruct (embeddings_api env (em_name model) "embedding-comparison-system" (trim c));
  destruct (String.eqb d ""); simpl;
  try destruct (embeddings_api env (em_name model) "embedding-comparison-system" (trim d));
  simpl; auto;
  try destruct (calculateCosineSimilarity _ _); simpl; auto;
  try destruct (calculateCosineSimilarity _ _); simpl; auto.
Qed.

Lemma bind_run {A B} (m : M A) (k : A -> M B) s a :
  fst (m s) = Ok a -> bind m k s = k a (snd (m s)).
Proof. unfold bind; destruct (m s) as [o s']; simpl; intros ->; reflexivity. Qed.

Lemma catch_run {A} (m : M A) (h : string -> M A) s a :
  fst (m s) = Ok a -> catch m h s = m s.
Proof. unfold catch; destruct (m s) as [o s']; simpl; intros ->; reflexivity. Qed.


Lemma model_loop_run (env : Env) c d p s :
  fst (model_loop env c d p embeddingModels [] s) = Ok (comparison_entries env c d p (ticks s)) /\
  ticks (snd (model_loop env c d p embeddingModels [] s)) = (6 + ticks s)%nat.
Proof.
  unfold embeddingModels, model_loop.
  destruct (model_step_run env c d p [] ada002 s) as [O1 T1].
  rewrite (bind_run _ _ _ _ O1).
  set (s1 := snd (model_step env c d p [] ada002 s)) in *.
  destruct (model_step_run env c d p
              (obj_set [] (em_key ada002) (model_entry env c d p ada002 (ticks s)))
              embedding3Small s1) as [O2 T2].
  rewrite (bind_run _ _ _ _ O2).
  set (s2 := snd (model_step env c d p
                     (obj_set [] (em_key ada002) (model_entry env c d p ada002 (ticks s)))
                     embedding3Small s1)) in *.
  destruct (model_step_run env c d p
              (obj_set (obj_set [] (em_key ada002) (model_entry env c d p ada002 (ticks s)))
                 (em_key embedding3Small) (model_entry env c d p embedding3Small (ticks s1)))
              embedding3Large s2) as [O3 T3].
  rewrite (bind_run _ _ _ _ O3).
  cbn [model_loop ret fst snd]. split.
  - rewrite T2, T1. reflexivity.
  - rewrite T3, T2, T1. reflexivity.
Qed.

Lemma comparison_run (env : Env) c d p s :
  AZURE_OPENAI env = true ->
  fst (calculateEmbeddingModelComparison env c d p s)
    = Ok (Some (comparison_entries env c d p (ticks s))) /\
  ticks (snd (calculateEmbeddingModelComparison env c d p s)) = (6 + ticks s)%nat.
Proof.
  intros Hcfg. destruct (model_loop_run env c d p s) as [O T].
  unfold calculateEmbeddingModelComparison; rewrite Hcfg; simpl negb; cbv iota.
  assert (E : fst (bind (model_loop env c d p embeddingModels [])
                    (fun results => ret (Some results)) s)
              = Ok (Some (comparison_entries env c d p (ticks s)))).
  { rewrite (bind_run _ _ _ _ O); reflexivity. }
  rewrite (catch_run _ _ _ _ E).
  rewrite (bind_run _ _ _ _ O); simpl. split; [f_equal; exact O|exact T].
Qed.

Lemma comparison_unconfigured (env : Env) c d p s :
  AZURE_OPENAI env = false ->
  calculateEmbeddingModelComparison env c d p s = (Ok None, s).
Proof.
  intros Hcfg; unfold calculateEmbeddingModelComparison; rewrite Hcfg; reflexivity.
Qed.


Lemma model_entry_fails (env : Env) model c d p t :
  model_call_fails env model c d p ->
  emr_azureVisionSimilarity (model_entry env c d p model t) = 0 /\
  emr_gpt4oSimilarity (model_entry env c d p model t) = 0.
Proof.
  unfold model_call_fails, model_entry; cbv zeta.
  intros [H|[H|[Hd H]]]; rewrite H.
  - simpl; auto.
  - destruct (embeddings_api env (em_name model) "embedding-comparison-system" (trim p));
      simpl; auto.
  - apply String.eqb_neq in Hd; rewrite Hd; simpl.
    destruct (embeddings_api env (em_name model) "embedding-comparison-system" (trim p)),
      (embeddings_api env (em_name model) "embedding-comparison-system" (trim c));
      simpl; auto.
Qed.

Lemma model_entry_local (env env' : Env) model dep c d p t :
  agrees_except env env' dep -> em_name model <> dep ->
  model_entry env' c d p model t = model_entry env c d p model t.
Proof.
  intros [_ [Hclk Hemb]] Hne; unfold model_entry.
  rewrite Hclk, !(Hemb (em_name model) _ _ Hne). reflexivity.
Qed.

(** ** C4: the embedding model comparison
    (C4) Whenever the comparison is computed (present in the response),
    it has exactly the three entries [ada002], [embedding3Small] and
    [embedding3Large]; an entry whose model has a failing embedding call
    is present with both similarities 0; and changing the answers of one
    model's deployment leaves the other two entries unchanged. *)
Theorem embedding_comparison_three_entries (env : Env) (c d p : string) (s : St)
  (r : list (string * EmbeddingModelResult)) :
  fst (calculateEmbeddingModelComparison env c d p s) = Ok (Some r) ->
  map fst r = ["ada002"; "embedding3Small"; "embedding3Large"]%string /\
  (forall model, In model embeddingModels -> model_call_fails env model c d p ->
     exists e, obj_get r (em_key model) = Some e /\
               emr_azureVisionSimilarity e = 0 /\ emr_gpt4oSimilarity e = 0) /\
  (forall model env' s', In model embeddingModels ->
     agrees_except env env' (em_name model) -> ticks s' = ticks s ->
     exists r', fst (calculateEmbeddingModelComparison env' c d p s') = Ok (Some r') /\
       forall other, In other embeddingModels -> other <> model ->
         obj_get r' (em_key other) = obj_get r (em_key other)).
Proof.
  intros H.
  destruct (AZURE_OPENAI env) eqn:Hc.
  2:{ rewrite comparison_unconfigured in H by exact Hc; discriminate. }
  destruct (comparison_run env c d p s Hc) as [O _].
  rewrite O in H; injection H as <-.
  split; [reflexivity|split].
  - intros model Hin Hf; simpl in Hin.
    destruct Hin as [<-|[<-|[<-|[]]]];
      eexists; (split; [reflexivity|apply model_entry_fails; exact Hf]).
  - intros model env' s' Hin Hag Ht.
    pose proof Hag as [Hc' _].
    rewrite Hc in Hc'.
    destruct (comparison_run env' c d p s' Hc') as [O' _].
    exists (comparison_entries env' c d p (ticks s')); split; [exact O'|].
    rewrite Ht.
    intros other Hin2 Hne; simpl in Hin, Hin2.
    destruct Hin as [<-|[<-|[<-|[]]]]; destruct Hin2 as [<-|[<-|[<-|[]]]];
      try (exfalso; apply Hne; reflexivity);
      cbn; f_equal; (eapply model_entry_local; [exact Hag|discriminate]).
Qed.

(** * The orchestrator *)

Lemma tick_pres_ret {A} (a : A) : tick_pres (ret a).
Proof. intros s; reflexivity. Qed.
Lemma tick_pres_throw {A} e : tick_pres (@throw A e).
Proof. intros s; reflexivity. Qed.
Lemma tick_pres_lift {A} (o : Outcome A) : tick_pres (lift o).
Proof. intros s; reflexivity. Qed.
Lemma tick_pres_emit c : tick_pres (emit c).
Proof. intros s; reflexivity. Qed.

Lemma tick_pres_bind {A B} (m : M A) (k : A -> M B) :
  tick_pres m -> (forall a, tick_pres (k a)) -> tick_pres (bind m k).
Proof.
  intros Hm Hk s; unfold bind; specialize (Hm s).
  destruct (m s) as [[a|e] s']; simpl in *; [rewrite Hk|]; exact Hm.
Qed.

Lemma tick_pres_catch {A} (m : M A) (h : string -> M A) :
  tick_pres m -> (forall e, tick_pres (h e)) -> tick_pres (catch m h).
Proof.
  intros Hm Hh s; unfold catch; specialize (Hm s).
  destruct (m s) as [[a|e] s']; simpl in *; [|rewrite Hh]; exact Hm.
Qed.

Lemma tick_pres_all2 {A B} (m1 : M A) (m2 : M B) :
  tick_pres m1 -> tick_pres m2 -> tick_pres (all2 m1 m2).
Proof.
  intros H1 H2 s; unfold all2; specialize (H1 s).
  destruct (m1 s) as [o1 s1]; specialize (H2 s1); destruct (m2 s1) as [o2 s2].
  simpl in *; destruct o1, o2; simpl; congruence.
Qed.

Ltac solve_tick_pres :=
  repeat (intros; cbv beta zeta;
    match goal with
    | |- tick_pres (bind _ _) => apply tick_pres_bind
    | |- tick_pres (catch _ _) => apply tick_pres_catch
    | |- tick_pres (all2 _ _) => apply tick_pres_all2
    | |- tick_pres (match ?x with _ => _ end) => destruct x
    | |- tick_pres (if ?x then _ else _) => destruct x
    | |- tick_pres (ret _) => apply tick_pres_ret
    | |- tick_pres (throw _) => apply tick_pres_throw
    | |- tick_pres (lift _) => apply tick_pres_lift
    | |- tick_pres (emit _) => apply tick_pres_emit
    | |- tick_pres (getTextEmbedding _ _) => unfold getTextEmbedding
    | |- tick_pres (calculateSemanticSimilarity _ _ _) => unfold calculateSemanticSimilarity
    | |- tick_pres (getImageEmbedding _) => unfold getImageEmbedding
    | |- tick_pres (getTextEmbeddingFromVision _ _) => unfold getTextEmbeddingFromVision
    end).

Lemma catch_ret_total {A} (m : M A) (x : A) s :
  exists a, fst (catch m (fun _ => ret x) s) = Ok a.
Proof. unfold catch; destruct (m s) as [[a|e] s']; simpl; eauto. Qed.

Section Branches.

Variable env : Env.

Lemma azure_vision_run p s :
  exists av, fst (calculateAzureVisionSimilarity env p s) = Ok av /\
             ticks (snd (calculateAzureVisionSimilarity env p s)) = ticks s.
Proof.
  assert (exists a, fst (calculateAzureVisionSimilarity env p s) = Ok a) as [av H]
    by (unfold calculateAzureVisionSimilarity; apply catch_ret_total).
  exists av; split; [exact H|].
  assert (T : tick_pres (calculateAzureVisionSimilarity env p)) by (unfold calculateAzureVisionSimilarity; solve_tick_pres).
  exact (T s).
Qed.

Lemma multimodal_run p s :
  exists mm, fst (calculateMultimodalSimilarity env p s) = Ok mm /\
             ticks (snd (calculateMultimodalSimilarity env p s)) = ticks s.
Proof.
  assert (exists a, fst (calculateMultimodalSimilarity env p s) = Ok a) as [mm H]
    by (unfold calculateMultimodalSimilarity; apply catch_ret_total).
  exists mm; split; [exact H|].
  assert (T : tick_pres (calculateMultimodalSimilarity env p)) by (unfold calculateMultimodalSimilarity; solve_tick_pres).
  exact (T s).
Qed.

Lemma gpt4o_run p s :
  exists g, fst (calculateGPT4oDescriptionSimilarity env p s) = Ok g /\
            ticks (snd (calculateGPT4oDescriptionSimilarity env p s)) = ticks s.
Proof.
  assert (exists a, fst (calculateGPT4oDescriptionSimilarity env p s) = Ok a) as [g H]
    by (unfold calculateGPT4oDescriptionSimilarity; apply catch_ret_total).
  exists g; split; [exact H|].
  assert (T : tick_pres (calculateGPT4oDescriptionSimilarity env p)) by (unfold calculateGPT4oDescriptionSimilarity; solve_tick_pres).
  exact (T s).
Qed.

Lemma comparison_total c d p s :
  exists ec, fst (calculateEmbeddingModelComparison env c d p s) = Ok ec.
Proof. unfold calculateEmbeddingModelComparison; apply catch_ret_total. Qed.

End Branches.


Lemma POST_success_run (env : Env) s img p w h av s2 mm s3 g s4 ec s5 :
  request_ok env img p w h ->
  calculateAzureVisionSimilarity env p (mkSt (trace s) (S (ticks s))) = (Ok av, s2) ->
  calculateMultimodalSimilarity env p s2 = (Ok mm, s3) ->
  calculateGPT4oDescriptionSimilarity env p s3 = (Ok g, s4) ->
  calculateEmbeddingModelComparison env (generatedCaption av) (description_or_empty g) p s4
    = (Ok ec, s5) ->
  POST env s = (Ok (success_response (image_size w h) p av mm g ec
                     (clock env (ticks s5) - clock env (ticks s))%Z),
                mkSt (trace s5) (S (ticks s5))).
Proof.
  intros [fd [Hfd [Himg [Hp [Hne [Hpre Hsh]]]]]] H1 H2 H3 H4.
  apply String.eqb_neq in Hne.
  unfold POST, post_try; rewrite Hfd, Himg, Hp, Hne, Hpre, Hsh.
  cbv [bind catch now negb]; cbv beta iota zeta.
  rewrite H1; cbv beta iota.
  rewrite H2; cbv beta iota.
  rewrite H3; cbv beta iota.
  rewrite H4; cbv beta iota.
  reflexivity.
Qed.

Lemma run_eq {A} (m : M A) s a : fst (m s) = Ok a -> m s = (Ok a, snd (m s)).
Proof. destruct (m s); simpl; intros ->; reflexivity. Qed.

(** On a request that passes validation, [POST] assembles its response
    from the four branches run one after the other. *)
Lemma POST_success (env : Env) s img p w h :
  request_ok env img p w h ->
  exists av s2 mm s3 g s4 ec s5,
    calculateAzureVisionSimilarity env p (mkSt (trace s) (S (ticks s))) = (Ok av, s2) /\
    calculateMultimodalSimilarity env p s2 = (Ok mm, s3) /\
    calculateGPT4oDescriptionSimilarity env p s3 = (Ok g, s4) /\
    calculateEmbeddingModelComparison env (generatedCaption av) (description_or_empty g) p s4
      = (Ok ec, s5) /\
    ticks s4 = S (ticks s) /\
    POST env s = (Ok (success_response (image_size w h) p av mm g ec
                       (clock env (ticks s5) - clock env (ticks s))%Z),
                  mkSt (trace s5) (S (ticks s5))).
Proof.
  intros Hok.
  set (s1 := mkSt (trace s) (S (ticks s))).
  destruct (azure_vision_run env p s1) as [av [E1 T1]].
  set (s2 := snd (calculateAzureVisionSimilarity env p s1)) in *.
  destruct (multimodal_run env p s2) as [mm [E2 T2]].
  set (s3 := snd (calculateMultimodalSimilarity env p s2)) in *.
  destruct (gpt4o_run env p s3) as [g [E3 T3]].
  set (s4 := snd (calculateGPT4oDescriptionSimilarity env p s3)) in *.
  destruct (comparison_total env (generatedCaption av) (description_or_empty g) p s4)
    as [ec E4].
  set (s5 := snd (calculateEmbeddingModelComparison env (generatedCaption av)
                    (description_or_empty g) p s4)).
  apply run_eq in E1, E2, E3, E4.
  exists av, s2, mm, s3, g, s4, ec, s5.
  split; [exact E1|split; [exact E2|split; [exact E3|split; [exact E4|split]]]].
  - rewrite T3, T2, T1; reflexivity.
  - eapply POST_success_run; eassumption.
Qed.


Lemma azure_vision_caption_failure (env : Env) p s :
  caption_fails env ->
  fst (calculateAzureVisionSimilarity env p s) = Ok azure_vision_fallback.
Proof.
  unfold calculateAzureVisionSimilarity; cbv [catch bind emit throw].
  intros [H|[H|[conf H]]].
  - rewrite H; reflexivity.
  - destruct (AZURE_AI_VISION env); simpl; rewrite ?H; reflexivity.
  - destruct (AZURE_AI_VISION env); simpl; rewrite ?H; reflexivity.
Qed.

(** With a caption but no Azure OpenAI configuration, the caption
    similarity is the token-overlap fallback. *)
Lemma azure_vision_offline (env : Env) p s text conf :
  AZURE_AI_VISION env = true -> caption_api env = Some (text, conf) ->
  text <> ""%string -> AZURE_OPENAI env = false ->
  fst (calculateAzureVisionSimilarity env p s)
    = Ok (mkAzureVisionResult (calculateBasicTextSimilarity text p) text conf
            "Azure-AI-Vision").
Proof.
  intros Hv Hc Hne Ho; apply String.eqb_neq in Hne.
  unfold calculateAzureVisionSimilarity, calculateSemanticSimilarity.
  rewrite Hv, Hc, Hne, Ho. reflexivity.
Qed.

(** ** C7: validation
    (C7) When the form lacks the image or the prompt (or the prompt is
    empty), or the file's MIME type does not start with [image/], [POST]
    answers [success: false] with a descriptive error and issues no
    provider call: the trace of calls is unchanged. *)
Theorem validation_rejects_without_calls (env : Env) (s : St) (fd : FormData) :
  formData env = Some fd ->
  (form_image fd = None \/ form_prompt fd = None \/ form_prompt fd = Some ""%string \/
   exists img p, form_image fd = Some img /\ form_prompt fd = Some p /\
                 String.prefix "image/" (file_type img) = false) ->
  exists r, POST env s = (Ok r, mkSt (trace s) (S (ticks s))) /\ success r = false /\
            (r = missing_fields_response \/ r = invalid_type_response).
Proof.
  intros Hfd Hbad.
  unfold POST, post_try; rewrite Hfd.
  destruct (form_image fd) as [img|] eqn:Ei; destruct (form_prompt fd) as [p|] eqn:Ep;
    cbv [bind catch now ret]; cbv beta iota;
    try (eexists; split; [reflexivity|]; split; [reflexivity|left; reflexivity]).
  destruct (String.eqb p "") eqn:Eq; cbv beta iota.
  - eexists; split; [reflexivity|]; split; [reflexivity|left; reflexivity].
  - destruct Hbad as [H|[H|[H|[img' [p' [H1 [H2 H3]]]]]]]; try discriminate.
    + injection H as ->; discriminate.
    + injection H1 as <-. rewrite H3. cbv beta iota.
      eexists; split; [reflexivity|]; split; [reflexivity|right; reflexivity].
Qed.

(** ** C10: the top-level exception handler
    (C10) When the body of [POST] throws, the failure response reports an
    image size of 0 x 0 and a prompt length of 0, whatever the request
    was, and the processing time elapsed between the two clock reads. *)
Theorem exception_handler_metadata (env : Env) (s s1 : St) (e : string) :
  post_try env (clock env (ticks s)) (mkSt (trace s) (S (ticks s))) = (Throw e, s1) ->
  exists r, POST env s = (Ok r, mkSt (trace s1) (S (ticks s1))) /\
    success r = false /\ error r = Some e /\
    metadata r = Some (mkMetadata (0, 0)%Z 0%Z
                         (clock env (ticks s1) - clock env (ticks s))%Z None).
Proof.
  intros H. unfold POST; cbv [bind now catch]; cbv beta iota.
  rewrite H. unfold post_handler; cbv [bind now ret]; cbv beta iota.
  eexists; split; [reflexivity|]; split; [reflexivity|split; reflexivity].
Qed.

(** ** C6: a failing caption adapter
    (C6, as the code has it) When the caption branch throws on a valid
    request, the response still succeeds, its caption details carry the
    empty caption and confidence 0, and [scores.azureVisionSimilarity]
    is the fixed fallback value 0. *)
Theorem caption_failure_degrades (env : Env) s img p w h :
  request_ok env img p w h -> caption_fails env ->
  exists r s', POST env s = (Ok r, s') /\ success r = true /\
    azureVisionDetails r = Some (""%string, 0, "Azure-AI-Vision"%string) /\
    option_map azureVisionSimilarity (scores r) = Some 0.
Proof.
  intros Hok Hcap.
  destruct (POST_success env s img p w h Hok)
    as [av [s2 [mm [s3 [g [s4 [ec [s5 [E1 [_ [_ [_ [_ EP]]]]]]]]]]]]].
  pose proof (azure_vision_caption_failure env p (mkSt (trace s) (S (ticks s))) Hcap) as F.
  rewrite E1 in F; injection F as ->.
  eexists; eexists; split; [exact EP|].
  simpl; rewrite round2_0; auto.
Qed.

(** * Concrete requests *)

Lemma request_ok_caption_down :
  request_ok env_caption_down png " " (Some 640%Z) (Some 480%Z).
Proof. eexists; repeat split; try reflexivity; discriminate. Qed.

Lemma request_ok_red : request_ok env_red png "red" (Some 640%Z) (Some 480%Z).
Proof. eexists; repeat split; try reflexivity; discriminate. Qed.

(** The claim C6 as stated: the caption similarity comes from the
    token-overlap fallback on the empty caption. *)
Lemma caption_failure_fallback_counterexample :
  ~ (forall (env : Env) s img p w h, request_ok env img p w h -> caption_fails env ->
      exists r s', POST env s = (Ok r, s') /\ success r = true /\
        azureVisionDetails r = Some (""%string, 0, "Azure-AI-Vision"%string) /\
        option_map azureVisionSimilarity (scores r)
          = Some (round2 (calculateBasicTextSimilarity "" p))).
Proof.
  intros H.
  destruct (H env_caption_down s0 png " "%string (Some 640%Z) (Some 480%Z)
              request_ok_caption_down (or_intror (or_introl eq_refl)))
    as [r [s' [EP [_ [_ Hsim]]]]].
  destruct (POST_success env_caption_down s0 png " " _ _ request_ok_caption_down)
    as [av [s2 [mm [s3 [g [s4 [ec [s5 [E1 [_ [_ [_ [_ EP2]]]]]]]]]]]]].
  pose proof (azure_vision_caption_failure env_caption_down " " (mkSt (trace s0) (S (ticks s0)))
                (or_intror (or_introl eq_refl))) as F.
  rewrite E1 in F; injection F as ->.
  rewrite EP in EP2; injection EP2 as -> _.
  simpl in Hsim. rewrite basic_similarity_space, round2_0 in Hsim.
  injection Hsim as Hsim. rewrite (round2_IZR 1) in Hsim. lra.
Qed.

(** ** C1: a similarity above 1
    (C1, failing input) Prompt "red", caption "red red", no Azure OpenAI
    configuration: the response reports
    [scores.azureVisionSimilarity = 2]. *)
Theorem fallback_similarity_exceeds_one :
  exists r s', POST env_red s0 = (Ok r, s') /\ success r = true /\
    option_map azureVisionSimilarity (scores r) = Some 2.
Proof.
  destruct (POST_success env_red s0 png "red" _ _ request_ok_red)
    as [av [s2 [mm [s3 [g [s4 [ec [s5 [E1 [_ [_ [_ [_ EP]]]]]]]]]]]]].
  pose proof (azure_vision_offline env_red "red" (mkSt (trace s0) (S (ticks s0)))
                "red red" (/ 2) eq_refl eq_refl ltac:(discriminate) eq_refl) as F.
  rewrite E1 in F; injection F as ->.
  eexists; eexists; split; [exact EP|split; [reflexivity|]].
  simpl. rewrite basic_similarity_red, (round2_IZR 2). reflexivity.
Qed.

(** ** C3: the token-overlap fallback
    (C3, failing inputs) [calculateBasicTextSimilarity "" ""] is 1, not
    0, and [calculateBasicTextSimilarity "red red" "red"] is 2 while the
    Jaccard index of the token sets is 1. *)
Theorem basic_similarity_not_jaccard :
  calculateBasicTextSimilarity "" "" = 1 /\
  calculateBasicTextSimilarity "red red" "red" = 2 /\
  jaccard_spec "red red" "red" = 1.
Proof.
  split; [exact basic_similarity_empty|split; [exact basic_similarity_red|]].
  unfold jaccard_spec; simpl; field.
Qed.

(** * Rounding and the multimodal branch *)

Lemma gpt4o_unconfigured (env : Env) p s :
  GPT4O_DEPLOYMENT env = None -> fst (calculateGPT4oDescriptionSimilarity env p s) = Ok None.
Proof.
  intros H; unfold calculateGPT4oDescriptionSimilarity; cbv [catch]; rewrite H; reflexivity.
Qed.


(** When the prompt and caption calls of a model succeed, its entry holds
    the cosine similarities exactly as [calculateCosineSimilarity]
    returns them. *)
Lemma model_entry_cosine (env : Env) c d p model t pe ce x :
  let call x := embeddings_api env (em_name model) "embedding-comparison-system" (trim x) in
  call p = Some pe -> call c = Some ce ->
  calculateCosineSimilarity (embedding pe) (embedding ce) = Ok x ->
  (d = ""%string ->
     emr_azureVisionSimilarity (model_entry env c d p model t) = x /\
     emr_gpt4oSimilarity (model_entry env c d p model t) = 0) /\
  (forall ge y, d <> ""%string -> call d = Some ge ->
     calculateCosineSimilarity (embedding pe) (embedding ge) = Ok y ->
     emr_azureVisionSimilarity (model_entry env c d p model t) = x /\
     emr_gpt4oSimilarity (model_entry env c d p model t) = y).
Proof.
  cbv zeta; intros Hp Hc Hx; unfold model_entry; cbv zeta; rewrite Hp, Hc.
  split.
  - intros ->; simpl; rewrite Hx; auto.
  - intros ge y Hne Hd Hy; apply String.eqb_neq in Hne; rewrite Hne, Hd; simpl.
    rewrite Hx, Hy; auto.
Qed.

Lemma model_entry_similarity (env : Env) c p model t pe ce x :
  embeddings_api env (em_name model) "embedding-comparison-system" (trim p) = Some pe ->
  embeddings_api env (em_name model) "embedding-comparison-system" (trim c) = Some ce ->
  calculateCosineSimilarity (embedding pe) (embedding ce) = Ok x ->
  emr_azureVisionSimilarity (model_entry env c "" p model t) = x.
Proof.
  intros Hp Hc Hx; unfold model_entry; cbv zeta.
  rewrite Hp, Hc; simpl. rewrite Hx. reflexivity.
Qed.

(** ** C5: rounding
    (C5, as the code has it) In a successful response each of the three
    [scores] fields is [round2] (two decimals) of the similarity its
    branch computed, while each entry of the embedding comparison holds
    the unrounded values of [calculateCosineSimilarity] on that model's
    prompt and caption (and description) embeddings, or 0 when one of
    that model's calls failed. *)
Theorem scores_rounded_comparison_raw (env : Env) s img p w h :
  request_ok env img p w h ->
  exists r s' av s2 mm s3 g s4,
    POST env s = (Ok r, s') /\ success r = true /\
    calculateAzureVisionSimilarity env p (mkSt (trace s) (S (ticks s))) = (Ok av, s2) /\
    calculateMultimodalSimilarity env p s2 = (Ok mm, s3) /\
    calculateGPT4oDescriptionSimilarity env p s3 = (Ok g, s4) /\
    scores r = Some (mkScores (round2 (av_similarity av))
                      (option_map (fun m => round2 (mm_similarity m)) mm)
                      (option_map (fun x => round2 (g_similarity x)) g)) /\
    (forall ec, embeddingComparison r = Some ec ->
       forall model, In model embeddingModels ->
       let call x := embeddings_api env (em_name model) "embedding-comparison-system" (trim x) in
       let c := generatedCaption av in
       let d := description_or_empty g in
       exists e, obj_get ec (em_key model) = Some e /\
         (model_call_fails env model c d p ->
            emr_azureVisionSimilarity e = 0 /\ emr_gpt4oSimilarity e = 0) /\
         (forall pe ce x, call p = Some pe -> call c = Some ce ->
            calculateCosineSimilarity (embedding pe) (embedding ce) = Ok x ->
            (d = ""%string -> emr_azureVisionSimilarity e = x /\ emr_gpt4oSimilarity e = 0) /\
            (forall ge y, d <> ""%string -> call d = Some ge ->
               calculateCosineSimilarity (embedding pe) (embedding ge) = Ok y ->
               emr_azureVisionSimilarity e = x /\ emr_gpt4oSimilarity e = y))).
Proof.
  intros Hok.
  destruct (POST_success env s img p w h Hok)
    as [av [s2 [mm [s3 [g [s4 [ec [s5 [E1 [E2 [E3 [E4 [_ EP]]]]]]]]]]]]].
  exists (success_response (image_size w h) p av mm g ec
            (clock env (ticks s5) - clock env (ticks s))%Z),
         (mkSt (trace s5) (S (ticks s5))), av, s2, mm, s3, g, s4.
  do 6 (split; [assumption || reflexivity|]).
  simpl. intros ec' Hec model Hin; subst ec. cbv zeta.
  destruct (AZURE_OPENAI env) eqn:Hc.
  2:{ rewrite comparison_unconfigured in E4 by exact Hc. discriminate. }
  destruct (comparison_run env (generatedCaption av) (description_or_empty g) p s4 Hc)
    as [O _].
  rewrite E4 in O; simpl in O; injection O as ->.
  set (c := generatedCaption av); set (d := description_or_empty g).
  assert (exists t, obj_get (comparison_entries env c d p (ticks s4)) (em_key model)
                    = Some (model_entry env c d p model t)) as [t Ht].
  { simpl in Hin; destruct Hin as [<-|[<-|[<-|[]]]]; eexists; reflexivity. }
  exists (model_entry env c d p model t); split; [exact Ht|split].
  - apply model_entry_fails.
  - intros pe ce x Hp Hce Hx; exact (model_entry_cosine env c d p model t pe ce x Hp Hce Hx).
Qed.


Lemma request_ok_cmp : request_ok env_cmp png "p" (Some 640%Z) (Some 480%Z).
Proof. eexists; repeat split; try reflexivity; discriminate. Qed.

(** The claim C5 as stated: every similarity of a successful response,
    those of the embedding comparison included, has two decimals. *)
Lemma comparison_not_rounded_counterexample :
  ~ (forall (env : Env) s img p w h, request_ok env img p w h ->
      exists r s', POST env s = (Ok r, s') /\ success r = true /\
        (exists sc, scores r = Some sc /\ is_hundredth (azureVisionSimilarity sc) /\
           (forall x, azureMultimodalSimilarity sc = Some x -> is_hundredth x) /\
           (forall x, gpt4oDescriptionSimilarity sc = Some x -> is_hundredth x)) /\
        (forall ec, embeddingComparison r = Some ec -> forall k e, In (k, e) ec ->
           is_hundredth (emr_azureVisionSimilarity e) /\
           is_hundredth (emr_gpt4oSimilarity e))).
Proof.
  intros H.
  destruct (H env_cmp s0 png "p"%string _ _ request_ok_cmp)
    as [r [s' [EP [_ [_ Hcmp]]]]].
  destruct (POST_success env_cmp s0 png "p" _ _ request_ok_cmp)
    as [av [s2 [mm [s3 [g [s4 [ec [s5 [E1 [_ [E3 [E4 [_ EP2]]]]]]]]]]]]].
  pose proof (azure_vision_caption_failure env_cmp "p" (mkSt (trace s0) (S (ticks s0)))
                (or_introl eq_refl)) as F.
  rewrite E1 in F; injection F as ->.
  pose proof (gpt4o_unconfigured env_cmp "p" s3 eq_refl) as G.
  rewrite E3 in G; injection G as ->.
  destruct (comparison_run env_cmp "" "" "p" s4 eq_refl) as [O _].
  change (generatedCaption azure_vision_fallback) with ""%string in E4.
  change (description_or_empty None) with ""%string in E4.
  rewrite E4 in O; simpl in O; injection O as ->.
  rewrite EP in EP2; injection EP2 as -> _.
  specialize (Hcmp _ eq_refl "ada002"%string
                (model_entry env_cmp "" "" "p" ada002 (ticks s4)) (or_introl eq_refl)).
  destruct Hcmp as [Hh _].
  rewrite (model_entry_similarity env_cmp "" "p" ada002 (ticks s4)
             (mkEmbeddingResponse [1; 0; 0] None) (mkEmbeddingResponse [1; 2; 2] None)
             (1 / 3) eq_refl eq_refl cosine_example) in Hh.
  exact (one_third_not_hundredth Hh).
Qed.


Lemma multimodal_failure (env : Env) p s :
  vectorize_image_api env = None \/ vectorize_text_api env (trim p) = None ->
  fst (calculateMultimodalSimilarity env p s) = Ok None.
Proof.
  intros H.
  unfold calculateMultimodalSimilarity, getImageEmbedding, getTextEmbeddingFromVision.
  cbv [catch bind all2 emit ret lift].
  destruct (AZURE_AI_VISION env); simpl; [|reflexivity].
  destruct H as [H|H]; rewrite H;
    [reflexivity|destruct (vectorize_image_api env); reflexivity].
Qed.

(** ** C8: a failing multimodal call
    (C8) On a valid request where the image or the text vectorize call
    fails, [scores.azureMultimodalSimilarity] and the multimodal details
    are absent, and whatever the two calls answer, the other scores, the
    caption and description details and the embedding comparison are the
    same. *)
Theorem multimodal_failure_isolated (env : Env) s img p w h :
  request_ok env img p w h ->
  vectorize_image_api env = None \/ vectorize_text_api env (trim p) = None ->
  exists r s', POST env s = (Ok r, s') /\ success r = true /\
    option_map azureMultimodalSimilarity (scores r) = Some None /\
    multimodalDetails r = None /\
    forall vi vt, exists r' s'', POST (with_multimodal env vi vt) s = (Ok r', s'') /\
      option_map azureVisionSimilarity (scores r') = option_map azureVisionSimilarity (scores r) /\
      option_map gpt4oDescriptionSimilarity (scores r')
        = option_map gpt4oDescriptionSimilarity (scores r) /\
      embeddingComparison r' = embeddingComparison r /\
      azureVisionDetails r' = azureVisionDetails r /\
      gpt4oDetails r' = gpt4oDetails r.
Proof.
  intros Hok Hfail.
  destruct (POST_success env s img p w h Hok)
    as [av [s2 [mm [s3 [g [s4 [ec [s5 [E1 [E2 [E3 [E4 [_ EP]]]]]]]]]]]]].
  pose proof (multimodal_failure env p s2 Hfail) as F.
  rewrite E2 in F; injection F as ->.
  eexists; eexists; split; [exact EP|split; [reflexivity|split; [reflexivity|split; [reflexivity|]]]].
  intros vi vt.
  set (env' := with_multimodal env vi vt).
  assert (Hok' : request_ok env' img p w h) by exact Hok.
  destruct (POST_success env' s img p w h Hok')
    as [av' [s2' [mm' [s3' [g' [s4' [ec' [s5' [E1' [E2' [E3' [E4' [_ EP']]]]]]]]]]]]].
  (* the caption branch reads nothing of the multimodal calls *)
  change (calculateAzureVisionSimilarity env' p) with (calculateAzureVisionSimilarity env p)
    in E1'.
  rewrite E1 in E1'; injection E1' as <- <-.
  (* the multimodal branch does not read the clock *)
  destruct (multimodal_run env p s2) as [x [_ T]]; rewrite E2 in T; simpl in T.
  destruct (multimodal_run env' p s2) as [x' [_ T']]; rewrite E2' in T'; simpl in T'.
  change (calculateGPT4oDescriptionSimilarity env' p) with
    (calculateGPT4oDescriptionSimilarity env p) in E3'.
  destruct (tick_det_calculateGPT4oDescriptionSimilarity env p s3 s3' ltac:(congruence))
    as [O3 T3].
  rewrite E3, E3' in O3, T3; simpl in O3, T3; injection O3 as <-.
  change (calculateEmbeddingModelComparison env' (generatedCaption av) (description_or_empty g) p)
    with (calculateEmbeddingModelComparison env (generatedCaption av) (description_or_empty g) p)
    in E4'.
  destruct (tick_det_calculateEmbeddingModelComparison env (generatedCaption av)
              (description_or_empty g) p s4 s4' T3) as [O4 _].
  rewrite E4, E4' in O4; simpl in O4; injection O4 as <-.
  eexists; eexists; split; [exact EP'|].
  repeat split; reflexivity.
Qed.

(** * Witnesses *)

Lemma embedding_comparison_three_entries_witness :
  fst (calculateEmbeddingModelComparison env_embeddings_down "" "" "a red ceramic mug" s0)
    = Ok (Some (comparison_entries env_embeddings_down "" "" "a red ceramic mug" 0)) /\
  map fst (comparison_entries env_embeddings_down "" "" "a red ceramic mug" 0)
    = ["ada002"; "embedding3Small"; "embedding3Large"]%string.
Proof.
  assert (H : fst (calculateEmbeddingModelComparison env_embeddings_down "" "" "a red ceramic mug" s0)
              = Ok (Some (comparison_entries env_embeddings_down "" "" "a red ceramic mug" 0)))
    by reflexivity.
  split; [exact H|].
  exact (proj1 (embedding_comparison_three_entries env_embeddings_down "" "" "a red ceramic mug"
                  s0 _ H)).
Defined.

Lemma validation_rejects_without_calls_witness :
  exists r, POST env_text_file s0 = (Ok r, mkSt (trace s0) (S (ticks s0))) /\
    success r = false /\ (r = missing_fields_response \/ r = invalid_type_response).
Proof.
  apply (validation_rejects_without_calls env_text_file s0
           (mkFormData (Some (mkFile "text/plain" "notes.txt")) (Some "a red ceramic mug"%string))
           eq_refl).
  right; right; right.
  exists (mkFile "text/plain" "notes.txt"), "a red ceramic mug"%string.
  split; [reflexivity|split; reflexivity].
Defined.

Lemma exception_handler_metadata_witness :
  exists r, POST env_bad_image s0 = (Ok r, mkSt [] 2) /\
    success r = false /\ error r = Some "Input buffer contains unsupported image format"%string /\
    metadata r = Some (mkMetadata (0, 0)%Z 0%Z 1%Z None).
Proof.
  apply (exception_handler_metadata env_bad_image s0 (mkSt [] 1)
           "Input buffer contains unsupported image format").
  reflexivity.
Defined.

Lemma caption_failure_degrades_witness :
  exists r s', POST env_caption_down s0 = (Ok r, s') /\ success r = true /\
    azureVisionDetails r = Some (""%string, 0, "Azure-AI-Vision"%string) /\
    option_map azureVisionSimilarity (scores r) = Some 0.
Proof.
  apply (caption_failure_degrades env_caption_down s0 png " " (Some 640%Z) (Some 480%Z)).
  - eexists; repeat split; try reflexivity; discriminate.
  - right; left; reflexivity.
Defined.

Lemma scores_rounded_comparison_raw_witness :
  request_ok env_cmp png "p" (Some 640%Z) (Some 480%Z) /\
  exists r s' av s2 mm s3 g s4,
    POST env_cmp s0 = (Ok r, s') /\ success r = true /\
    calculateAzureVisionSimilarity env_cmp "p"%string (mkSt (trace s0) (S (ticks s0))) = (Ok av, s2) /\
    calculateMultimodalSimilarity env_cmp "p"%string s2 = (Ok mm, s3) /\
    calculateGPT4oDescriptionSimilarity env_cmp "p"%string s3 = (Ok g, s4) /\
    scores r = Some (mkScores (round2 (av_similarity av))
                      (option_map (fun m => round2 (mm_similarity m)) mm)
                      (option_map (fun x => round2 (g_similarity x)) g)) /\
    (forall ec, embeddingComparison r = Some ec ->
       forall model, In model embeddingModels ->
       let call x := embeddings_api env_cmp (em_name model) "embedding-comparison-system" (trim x) in
       let c := generatedCaption av in
       let d := description_or_empty g in
       exists e, obj_get ec (em_key model) = Some e /\
         (model_call_fails env_cmp model c d "p"%string ->
            emr_azureVisionSimilarity e = 0 /\ emr_gpt4oSimilarity e = 0) /\
         (forall pe ce x, call "p"%string = Some pe -> call c = Some ce ->
            calculateCosineSimilarity (embedding pe) (embedding ce) = Ok x ->
            (d = ""%string -> emr_azureVisionSimilarity e = x /\ emr_gpt4oSimilarity e = 0) /\
            (forall ge y, d <> ""%string -> call d = Some ge ->
               calculateCosineSimilarity (embedding pe) (embedding ge) = Ok y ->
               emr_azureVisionSimilarity e = x /\ emr_gpt4oSimilarity e = y))).
Proof.
  assert (H : request_ok env_cmp png "p" (Some 640%Z) (Some 480%Z))
    by (eexists; repeat split; try reflexivity; discriminate).
  split; [exact H|].
  exact (scores_rounded_comparison_raw env_cmp s0 png "p" (Some 640%Z) (Some 480%Z) H).
Defined.

Lemma multimodal_failure_isolated_witness :
  exists r s', POST env_caption_down s0 = (Ok r, s') /\ success r = true /\
    option_map azureMultimodalSimilarity (scores r) = Some None /\
    multimodalDetails r = None /\
    forall vi vt, exists r' s'', POST (with_multimodal env_caption_down vi vt) s0 = (Ok r', s'') /\
      option_map azureVisionSimilarity (scores r') = option_map azureVisionSimilarity (scores r) /\
      option_map gpt4oDescriptionSimilarity (scores r')
        = option_map gpt4oDescriptionSimilarity (scores r) /\
      embeddingComparison r' = embeddingComparison r /\
      azureVisionDetails r' = azureVisionDetails r /\
      gpt4oDetails r' = gpt4oDetails r.
Proof.
  apply (multimodal_failure_isolated env_caption_down s0 png " " (Some 640%Z) (Some 480%Z)).
  - eexists; repeat split; try reflexivity; discriminate.
  - left; reflexivity.
Defined.
